(** * Simple MCP Server (examples/simple-mcp-server.py)

    A shallow embedding of the FastAPI example server and the facts its
    specification states about it.  The six handlers are Python coroutines
    without an [await] inside, so each one is modelled as a computation in a
    small state-and-exception monad over the two things a handler can
    observe: the wall clock and the random source. *)

From Stdlib Require Import String Ascii List NArith ZArith Arith Bool Lia.
Import ListNotations.
Open Scope string_scope.
Open Scope nat_scope.

(** ** Python values

    The values a handler receives (a decoded JSON body) and returns (the
    object FastAPI serialises).  A dict is kept as its items in insertion
    order, as CPython does.  A finite float is kept exactly, as
    [mantissa * 10 ^ exponent10], since every finite binary64 has such a
    form; the infinities and the one NaN have constructors of their own.
    A [str] is kept as the bytes of its UTF-8 form, and a lone surrogate,
    which has no UTF-8 form, as the three bytes the same scheme would give
    its code point (ED, then A0 to BF, then one more). *)

#[local] Set Warnings "-register-all".

Inductive value : Type :=
| VNone
| VBool (b : bool)
| VInt (n : Z)
| VFloat (mantissa exponent10 : Z)
| VFloatInf (negative : bool)
| VFloatNaN
| VStr (s : string)
| VList (elems : list value)
| VDict (items : list (string * value)).

Definition pydict := list (string * value).

(** [d.get(k)] on the items of a dict. *)
Fixpoint dict_get (k : string) (d : pydict) : option value :=
  match d with
  | [] => None
  | (k', v) :: rest => if String.eqb k k' then Some v else dict_get k rest
  end.

(** [d[k] = v]: replaces the value of a present key in place, appends a new
    key at the end. *)
Fixpoint dict_set (k : string) (v : value) (d : pydict) : pydict :=
  match d with
  | [] => [(k, v)]
  | (k', v') :: rest =>
      if String.eqb k k' then (k, v) :: rest else (k', v') :: dict_set k v rest
  end.

Definition dict_keys (d : pydict) : list string := map fst d.

(** [v[k]] for a value that is expected to be a dict. *)
Definition getitem (v : value) (k : string) : option value :=
  match v with
  | VDict d => dict_get k d
  | _ => None
  end.

Definition is_str (v : value) : bool :=
  match v with VStr _ => true | _ => false end.

Definition nonempty_str (v : value) : bool :=
  match v with VStr s => negb (String.eqb s "") | _ => false end.

(** [s.encode("utf-8")] succeeds: no surrogate in [s]. *)
Fixpoint encodable (s : string) : bool :=
  match s with
  | EmptyString => true
  | String c rest =>
      match rest with
      | String c' _ =>
          negb ((N_of_ascii c =? 237)%N && (160 <=? N_of_ascii c')%N)
          && encodable rest
      | EmptyString => true
      end
  end.

(** Only bytes below 128: ASCII text. *)
Fixpoint plain (s : string) : bool :=
  match s with
  | EmptyString => true
  | String c rest => (N_of_ascii c <? 128)%N && plain rest
  end.

(** What [JSONResponse.render] can turn into a body:
    [json.dumps(content, ensure_ascii=False, allow_nan=False, ...)] raises
    [ValueError] on an infinity or a NaN anywhere in the content, and the
    [.encode("utf-8")] that follows raises on a surrogate in a string or in
    a key. *)
Fixpoint renderable (v : value) : bool :=
  match v with
  | VNone | VBool _ | VInt _ | VFloat _ _ => true
  | VFloatInf _ | VFloatNaN => false
  | VStr s => encodable s
  | VList elems =>
      (fix all (l : list value) : bool :=
         match l with
         | [] => true
         | x :: l' => renderable x && all l'
         end) elems
  | VDict items =>
      (fix all (l : list (string * value)) : bool :=
         match l with
         | [] => true
         | (k, x) :: l' => encodable k && renderable x && all l'
         end) items
  end.

(** ** datetime

    A naive [datetime] object is its seven fields; [fold], which equality
    between datetimes ignores, is not kept. *)

Module datetime.

Local Open Scope N_scope.

Record t : Type := mk {
  year : N; month : N; day : N;
  hour : N; minute : N; second : N;
  microsecond : N
}.

Definition is_leap (y : N) : bool :=
  (y mod 4 =? 0) && (negb (y mod 100 =? 0) || (y mod 400 =? 0)).

Definition days_in_month (y m : N) : N :=
  if (m =? 2) && is_leap y then 29
  else nth (N.to_nat m) [0; 31; 28; 31; 30; 31; 30; 31; 31; 30; 31; 30; 31] 0.

(** The class invariant the constructor enforces (MINYEAR = 1,
    MAXYEAR = 9999). *)
Definition valid (d : t) : bool :=
  (1 <=? year d) && (year d <=? 9999) &&
  (1 <=? month d) && (month d <=? 12) &&
  (1 <=? day d) && (day d <=? days_in_month (year d) (month d)) &&
  (hour d <? 24) && (minute d <? 60) && (second d <? 60) &&
  (microsecond d <? 1000000).

(** *** isoformat *)

(** The character of the last decimal digit of [n]. *)
Definition digit (n : N) : ascii := ascii_of_N (48 + n mod 10).

(** [n] printed on exactly [width] decimal digits, most significant first:
    the format [%0<width>d] for the values below [10 ^ width], which is all
    a valid datetime field can hold. *)
Fixpoint zfill (width : nat) (n : N) : string :=
  match width with
  | O => ""
  | S w =>
      let unit := 10 ^ N.of_nat w in
      String (digit (n / unit)) (zfill w (n mod unit))
  end.

(** [datetime.isoformat()] with the default separator and timespec, for a
    naive datetime: the fraction is printed only when it is not zero, and
    there is no offset suffix. *)
Definition isoformat (d : t) : string :=
  zfill 4 (year d) ++ "-" ++ zfill 2 (month d) ++ "-" ++ zfill 2 (day d)
  ++ "T"
  ++ zfill 2 (hour d) ++ ":" ++ zfill 2 (minute d) ++ ":" ++ zfill 2 (second d)
  ++ (if microsecond d =? 0 then "" else "." ++ zfill 6 (microsecond d)).

(** *** fromisoformat, on the two layouts [isoformat] prints *)

Definition digit_value (c : ascii) : option N :=
  let n := N_of_ascii c in
  if (48 <=? n) && (n <=? 57) then Some (n - 48) else None.

Fixpoint read_digits (width : nat) (acc : N) (s : string)
  : option (N * string) :=
  match width with
  | O => Some (acc, s)
  | S w =>
      match s with
      | String c rest =>
          match digit_value c with
          | Some v => read_digits w (10 * acc + v) rest
          | None => None
          end
      | EmptyString => None
      end
  end.

Definition expect (c : ascii) (s : string) : option string :=
  match s with
  | String c' rest => if Ascii.eqb c c' then Some rest else None
  | EmptyString => None
  end.

Definition field (width : nat) (sep : ascii) (s : string)
  : option (N * string) :=
  match read_digits width 0 s with
  | Some (n, rest) =>
      match expect sep rest with
      | Some rest' => Some (n, rest')
      | None => None
      end
  | None => None
  end.

Definition checked (d : t) : option t := if valid d then Some d else None.

Definition fromisoformat (s : string) : option t :=
  match field 4 "-" s with None => None | Some (y, s) =>
  match field 2 "-" s with None => None | Some (mo, s) =>
  match field 2 "T" s with None => None | Some (dd, s) =>
  match field 2 ":" s with None => None | Some (h, s) =>
  match field 2 ":" s with None => None | Some (mi, s) =>
  match read_digits 2 0 s with None => None | Some (sec, s) =>
  match s with
  | EmptyString => checked (mk y mo dd h mi sec 0)
  | String c s =>
      if Ascii.eqb c "." then
        match read_digits 6 0 s with
        | Some (us, EmptyString) => checked (mk y mo dd h mi sec us)
        | _ => None
        end
      else None
  end end end end end end end.

(** *** timestamp *)

Definition days_before_year (y : N) : N :=
  let p := y - 1 in p * 365 + p / 4 - p / 100 + p / 400.

Definition days_before_month (y m : N) : N :=
  nth (N.to_nat m) [0; 0; 31; 59; 90; 120; 151; 181; 212; 243; 273; 304; 334] 0
  + (if (2 <? m) && is_leap y then 1 else 0).

(** Proleptic Gregorian ordinal, 0001-01-01 being day 1. *)
Definition ymd2ord (y m d : N) : N :=
  days_before_year y + days_before_month y m + d.

Definition epoch_ordinal : N := Eval cbv in ymd2ord 1970 1 1.

(** Microseconds between the epoch and the instant a naive datetime denotes
    in a zone that is [offset] seconds east of UTC at that local time. *)
Definition posix_micros (offset : Z) (d : t) : Z :=
  (((Z.of_N (ymd2ord (year d) (month d) (day d)) - Z.of_N epoch_ordinal)
     * 86400
   + Z.of_N (hour d) * 3600 + Z.of_N (minute d) * 60 + Z.of_N (second d)
   - offset) * 1000000
  + Z.of_N (microsecond d))%Z.

End datetime.

(** ** The world a handler runs in *)

Record World : Type := mkWorld {
  (** what the k-th read of the system clock returns, as local time *)
  clock : nat -> datetime.t;
  clock_reads : nat;
  (** the local zone: seconds east of UTC at a given local time *)
  utcoffset : datetime.t -> Z;
  (** the results of the calls of [getrandbits] to come, each to be cut to
      the number of bits asked for; once they are used up the source hands
      out zeros *)
  entropy : list nat;
  (** how many calls of [getrandbits] there have been *)
  draws : nat
}.

Inductive exn : Type :=
| IndexError.

(** Computations that read the world and may raise. *)
Definition Py (A : Type) : Type := World -> (A + exn) * World.

Definition ret {A} (a : A) : Py A := fun w => (inl a, w).

Definition raise {A} (e : exn) : Py A := fun w => (inr e, w).

Definition bind {A B} (c : Py A) (k : A -> Py B) : Py B :=
  fun w =>
    match c w with
    | (inl a, w') => k a w'
    | (inr e, w') => (inr e, w')
    end.

Notation "x <- c ;; k" := (bind c (fun x => k))
  (at level 61, c at next level, right associativity).

(** [datetime.now()]: one read of the system clock. *)
Definition datetime_now : Py datetime.t :=
  fun w =>
    (inl (clock w (clock_reads w)),
     mkWorld (clock w) (S (clock_reads w)) (utcoffset w) (entropy w) (draws w)).

(** [d.timestamp()] of a naive datetime: seconds since the epoch, local time
    assumed.  The float is kept as an exact count of microseconds: its
    rounding to binary64 is outside the model, and so is the exception
    raised at the two ends of the range of years. *)
Definition datetime_timestamp (d : datetime.t) : Py value :=
  fun w => (inl (VFloat (datetime.posix_micros (utcoffset w d) d) (-6)), w).

(** [n.bit_length()] *)
Definition bit_length (n : nat) : nat :=
  match n with
  | O => O
  | S _ => S (Nat.log2 n)
  end.

(** The loop of [random._randbelow_with_getrandbits(n)], for [n > 0], run
    on the words to come:
    [r = getrandbits(k); while r >= n: r = getrandbits(k); return r].
    Gives [r] and the number of calls of [getrandbits] made. *)
Fixpoint randbelow_loop (k n : nat) (words : list nat) : nat * nat :=
  match words with
  | [] => (0, 1)
  | word :: rest =>
      let r := word mod 2 ^ k in
      if r <? n then (r, 1)
      else let (r', calls) := randbelow_loop k n rest in (r', S calls)
  end.

(** [random._randbelow(n)] for [n > 0], with [k = n.bit_length()]. *)
Definition randbelow (n : nat) : Py nat :=
  fun w =>
    let (r, calls) := randbelow_loop (bit_length n) n (entropy w) in
    (inl r,
     mkWorld (clock w) (clock_reads w) (utcoffset w)
             (skipn calls (entropy w)) (calls + draws w)).

(** [seq[i]] *)
Definition seq_getitem {A} (seq : list A) (i : nat) : Py A :=
  match nth_error seq i with
  | Some x => ret x
  | None => raise IndexError
  end.

(** [random.choice(seq)]: [seq[_randbelow(len(seq))]], IndexError on an
    empty sequence. *)
Definition random_choice {A} (seq : list A) : Py A :=
  match seq with
  | [] => raise IndexError
  | _ => i <- randbelow (length seq) ;; seq_getitem seq i
  end.

(** ** The handlers *)

(** [@app.get("/")] *)
Definition root : Py value :=
  ret (VDict [("message", VStr "Simple MCP Server is running!")]).

(** [@app.get("/health")] *)
Definition health : Py value :=
  now <- datetime_now ;;
  ret (VDict [("status", VStr "healthy");
              ("timestamp", VStr (datetime.isoformat now))]).

Definition facts : list string :=
  [ "The MCP protocol was designed to standardize AI tool integration";
    "Octopuses have three hearts and blue blood";
    "Honey never spoils - archaeologists have found edible honey in Egyptian tombs";
    "A group of flamingos is called a 'flamboyance'";
    "The shortest war in history lasted only 38-45 minutes" ].

(** [@app.get("/random-fact")]; the dict display evaluates its values in
    source order, the draw before the clock read. *)
Definition get_random_fact : Py value :=
  fact <- random_choice facts ;;
  now <- datetime_now ;;
  ret (VDict [("fact", VStr fact);
              ("timestamp", VStr (datetime.isoformat now))]).

(** [@app.get("/time")]: two calls of [datetime.now()]. *)
Definition get_current_time : Py value :=
  now1 <- datetime_now ;;
  now2 <- datetime_now ;;
  ts <- datetime_timestamp now2 ;;
  ret (VDict [("current_time", VStr (datetime.isoformat now1));
              ("timezone", VStr "UTC");
              ("unix_timestamp", ts)]).

(** [@app.post("/echo")] *)
Definition echo_message (data : pydict) : Py value :=
  now <- datetime_now ;;
  ret (VDict [("echoed", VDict data);
              ("timestamp", VStr (datetime.isoformat now));
              ("message", VStr "Echo successful")]).

(** [@app.post("/mcp")] *)
Definition mcp_endpoint : Py value :=
  ret (VDict
    [("tools", VList
       [ VDict [("name", VStr "get_random_fact");
                ("description", VStr "Get a random interesting fact");
                ("url", VStr "/random-fact");
                ("method", VStr "GET")];
         VDict [("name", VStr "get_current_time");
                ("description", VStr "Get the current time");
                ("url", VStr "/time");
                ("method", VStr "GET")];
         VDict [("name", VStr "health_check");
                ("description", VStr "Check server health status");
                ("url", VStr "/health");
                ("method", VStr "GET")] ]);
     ("server_info", VDict
       [("name", VStr "Simple MCP Server");
        ("version", VStr "1.0.0");
        ("description", VStr "A simple MCP server for testing")])]).

(** ** The application object

    What the decorators register, and how FastAPI brings a request to an
    endpoint.  Only the routes the file declares are listed.  A path that
    none of them has is answered by the framework (its documentation
    pages, its redirect of a trailing slash, or 404), of which only the
    404 is kept; nothing below is stated about such paths. *)

Inductive http_method : Type :=
| GET | POST | PUT | DELETE | PATCH | HEAD | OPTIONS.

Definition method_name (m : http_method) : string :=
  match m with
  | GET => "GET" | POST => "POST" | PUT => "PUT" | DELETE => "DELETE"
  | PATCH => "PATCH" | HEAD => "HEAD" | OPTIONS => "OPTIONS"
  end.

Definition method_eqb (a b : http_method) : bool :=
  String.eqb (method_name a) (method_name b).

(** An endpoint by its signature: no parameter, or the single body
    parameter [data: dict]. *)
Inductive endpoint : Type :=
| NoParams (h : Py value)
| DictBody (h : pydict -> Py value).

Record route : Type := mkRoute {
  route_method : http_method;
  route_path : string;
  route_endpoint : endpoint
}.

Definition app : list route :=
  [ mkRoute GET "/" (NoParams root);
    mkRoute GET "/health" (NoParams health);
    mkRoute GET "/random-fact" (NoParams get_random_fact);
    mkRoute GET "/time" (NoParams get_current_time);
    mkRoute POST "/echo" (DictBody echo_message);
    mkRoute POST "/mcp" (NoParams mcp_endpoint) ].

Record request : Type := mkRequest {
  method : http_method;
  path : string;
  body : string
}.

(** A response is the handler's return value under status 200, or an error
    response, of which only the status is kept. *)
Inductive response : Type :=
| JSONResponse (content : value)
| HTTPError (status : nat).

Definition status_code (r : response) : nat :=
  match r with
  | JSONResponse _ => 200
  | HTTPError s => s
  end.

Definition is_4xx (r : response) : bool :=
  (400 <=? status_code r) && (status_code r <? 500).

(** The first route whose path and method both match; failing that, whether
    some route matched the path alone. *)
Fixpoint find_route (routes : list route) (m : http_method) (p : string)
  (partial : bool) : route + bool :=
  match routes with
  | [] => inr partial
  | r :: rest =>
      if String.eqb (route_path r) p then
        if method_eqb (route_method r) m then inl r
        else find_route rest m p true
      else find_route rest m p partial
  end.

(** What decoding a request body gives: the decoded value, a
    [JSONDecodeError], or any other exception raised on the way (a body
    that is not valid UTF-8, for one). *)
Inductive decoding : Type :=
| Decoded (v : value)
| JSONDecodeError
| OtherError.

Section FastAPI.

(** The JSON decoder the framework applies to a request body
    ([json.loads]).  Requests are taken to carry a JSON content type. *)
Variable json_loads : string -> decoding.

(** The body as the framework reads it: [None] when the request has no
    body, the outcome of decoding otherwise. *)
Definition request_json (req : request) : option decoding :=
  if String.eqb (body req) "" then None else Some (json_loads (body req)).

(** Calls the endpoint with the parameters its signature asks for and
    renders what comes out.

    A returned document that cannot be rendered makes the request fail
    with 500, after the handler has run.  For [data: dict]: an exception
    other than [JSONDecodeError] while reading the body is answered with
    400; a body that is missing or does not decode is a validation error,
    422; so is a body that decodes to something other than a dict, but the
    error document then carries the rejected value as its [input], and if
    that cannot be rendered the answer is 500.  In none of these cases is
    the endpoint called. *)
Definition call_endpoint (e : endpoint) (req : request)
  : World -> response * World :=
  fun w =>
    let run (c : Py value) :=
      match c w with
      | (inl v, w') =>
          (if renderable v then JSONResponse v else HTTPError 500, w')
      | (inr _, w') => (HTTPError 500, w')
      end in
    match e with
    | NoParams h => run h
    | DictBody h =>
        match request_json req with
        | Some (Decoded (VDict data)) => run (h data)
        | Some (Decoded input) =>
            (if renderable input then HTTPError 422 else HTTPError 500, w)
        | Some JSONDecodeError => (HTTPError 422, w)
        | Some OtherError => (HTTPError 400, w)
        | None => (HTTPError 422, w)
        end
    end.

Definition handle (req : request) : World -> response * World :=
  fun w =>
    match find_route app (method req) (path req) false with
    | inl r => call_endpoint (route_endpoint r) req w
    | inr true => (HTTPError 405, w)
    | inr false => (HTTPError 404, w)
    end.

End FastAPI.

(** ** A decoder to run requests with

    The statements below hold for any decoder.  To run the server on
    concrete request bodies, this one reads JSON text as [json.loads]
    does: the grammar of RFC 8259 and, beyond it, the constants [NaN],
    [Infinity] and [-Infinity]; a number with a fraction or an exponent is
    a float, an infinity when it is too large for a binary64; on a repeated
    key the last value wins.  With [strict] set it reads the grammar of
    RFC 8259 only. *)

Module json.

Definition quote : ascii := "034"%char.

Definition is_ws (c : ascii) : bool :=
  match N_of_ascii c with
  | 9%N | 10%N | 13%N | 32%N => true
  | _ => false
  end.

Fixpoint skip_ws (s : string) : string :=
  match s with
  | String c rest => if is_ws c then skip_ws rest else s
  | EmptyString => s
  end.

Fixpoint strip_prefix (p s : string) : option string :=
  match p, s with
  | EmptyString, _ => Some s
  | String a p', String b s' => if Ascii.eqb a b then strip_prefix p' s' else None
  | String _ _, EmptyString => None
  end.

(** *** Strings *)

Definition hex_value (c : ascii) : option N :=
  let n := N_of_ascii c in
  (if (48 <=? n) && (n <=? 57) then Some (n - 48)
   else if (65 <=? n) && (n <=? 70) then Some (n - 55)
   else if (97 <=? n) && (n <=? 102) then Some (n - 87)
   else None)%N.

Fixpoint scan_hex (count : nat) (acc : N) (s : string)
  : option (N * string) :=
  match count with
  | O => Some (acc, s)
  | S count' =>
      match s with
      | String c rest =>
          match hex_value c with
          | Some v => scan_hex count' (16 * acc + v)%N rest
          | None => None
          end
      | EmptyString => None
      end
  end.

Definition byte (n : N) : string := String (ascii_of_N n) "".

(** The bytes of a code point; a surrogate gets the three bytes the scheme
    gives the other code points of its range. *)
Definition utf8 (cp : N) : string :=
  (if cp <? 128 then byte cp
   else if cp <? 2048 then byte (192 + cp / 64) ++ byte (128 + cp mod 64)
   else if cp <? 65536 then
     byte (224 + cp / 4096) ++ byte (128 + (cp / 64) mod 64)
     ++ byte (128 + cp mod 64)
   else
     byte (240 + cp / 262144) ++ byte (128 + (cp / 4096) mod 64)
     ++ byte (128 + (cp / 64) mod 64) ++ byte (128 + cp mod 64))%N.

(** What follows a backslash.  A high surrogate escape directly followed by
    a low surrogate escape is one code point; any other surrogate escape
    stays a surrogate. *)
Definition scan_escape (s : string) : option (string * string) :=
  match s with
  | EmptyString => None
  | String c rest =>
      if Ascii.eqb c quote then Some (String quote "", rest)
      else if Ascii.eqb c "\" then Some ("\", rest)
      else if Ascii.eqb c "/" then Some ("/", rest)
      else if Ascii.eqb c "b" then Some (byte 8, rest)
      else if Ascii.eqb c "f" then Some (byte 12, rest)
      else if Ascii.eqb c "n" then Some (byte 10, rest)
      else if Ascii.eqb c "r" then Some (byte 13, rest)
      else if Ascii.eqb c "t" then Some (byte 9, rest)
      else if Ascii.eqb c "u" then
        match scan_hex 4 0 rest with
        | None => None
        | Some (hi, rest1) =>
            let alone := Some (utf8 hi, rest1) in
            if ((55296 <=? hi) && (hi <=? 56319))%N then
              match rest1 with
              | String "\" (String "u" rest2) =>
                  match scan_hex 4 0 rest2 with
                  | Some (lo, rest3) =>
                      if ((56320 <=? lo) && (lo <=? 57343))%N then
                        Some (utf8 (65536 + (hi - 55296) * 1024
                                    + (lo - 56320))%N, rest3)
                      else alone
                  | None => alone
                  end
              | _ => alone
              end
            else alone
        end
      else None
  end.

(** The characters of a string literal after its opening quote. *)
Fixpoint scan_string (fuel : nat) (s : string) : option (string * string) :=
  match fuel with
  | O => None
  | S fuel' =>
      match s with
      | EmptyString => None
      | String c rest =>
          if Ascii.eqb c quote then Some ("", rest)
          else if Ascii.eqb c "\" then
            match scan_escape rest with
            | Some (chunk, rest') =>
                match scan_string fuel' rest' with
                | Some (lit, rest'') => Some (chunk ++ lit, rest'')
                | None => None
                end
            | None => None
            end
          else if (N_of_ascii c <? 32)%N then None
          else
            match scan_string fuel' rest with
            | Some (lit, rest') => Some (String c lit, rest')
            | None => None
            end
      end
  end.

Definition string_literal (s : string) : option (string * string) :=
  scan_string (S (String.length s)) s.

(** *** Numbers *)

(** The digits at the head of [s]: their value on top of [acc], how many
    they are, and what follows them. *)
Fixpoint scan_digits (acc : Z) (count : Z) (s : string) : Z * Z * string :=
  match s with
  | String c rest =>
      match datetime.digit_value c with
      | Some v => scan_digits (10 * acc + Z.of_N v) (count + 1) rest
      | None => (acc, count, s)
      end
  | EmptyString => (acc, count, s)
  end.

(** The integer part: a lone [0], or digits that do not start with [0]. *)
Definition scan_int (s : string) : option (Z * string) :=
  match s with
  | String c rest =>
      match datetime.digit_value c with
      | Some 0%N => Some (0%Z, rest)
      | Some v => let '(n, _, rest') := scan_digits (Z.of_N v) 0 rest in
                  Some (n, rest')
      | None => None
      end
  | EmptyString => None
  end.

Definition starts_with_digit (s : string) : bool :=
  match s with
  | String c _ =>
      match datetime.digit_value c with Some _ => true | None => false end
  | EmptyString => false
  end.

(** [float] of the decimal [m * 10 ^ e], [m >= 0], with the sign given
    apart: an infinity from half an ulp above the largest binary64 on. *)
Definition to_float (negative : bool) (m e : Z) : value :=
  let limit := (2 ^ 1024 - 2 ^ 970)%Z in
  let overflow :=
    if (0 <=? e)%Z then (limit <=? m * 10 ^ e)%Z
    else (limit * 10 ^ (- e) <=? m)%Z in
  if overflow then VFloatInf negative
  else VFloat (if negative then - m else m) e.

(** A number, after its sign. *)
Definition scan_number (negative : bool) (s : string)
  : option (value * string) :=
  match scan_int s with
  | None => None
  | Some (ip, s1) =>
      let '(m, fd, s2) :=
        match s1 with
        | String "." r =>
            if starts_with_digit r then scan_digits ip 0 r else (ip, 0%Z, s1)
        | _ => (ip, 0%Z, s1)
        end in
      let is_e c := Ascii.eqb c "e" || Ascii.eqb c "E" in
      let exponent : option (Z * string) :=
        match s2 with
        | String c r =>
            if is_e c then
              match r with
              | String "-" r' =>
                  if starts_with_digit r' then
                    let '(x, _, r'') := scan_digits 0 0 r' in Some ((- x)%Z, r'')
                  else None
              | String "+" r' =>
                  if starts_with_digit r' then
                    let '(x, _, r'') := scan_digits 0 0 r' in Some (x, r'')
                  else None
              | _ =>
                  if starts_with_digit r then
                    let '(x, _, r'') := scan_digits 0 0 r in Some (x, r'')
                  else None
              end
            else None
        | EmptyString => None
        end in
      match exponent with
      | Some (x, s3) => Some (to_float negative m (x - fd), s3)
      | None =>
          if (fd =? 0)%Z then Some (VInt (if negative then - ip else ip), s2)
          else Some (to_float negative m (- fd), s2)
      end
  end.

(** *** Values *)

(** A key of an object and the colon after it. *)
Definition expect_key (s : string) : option (string * string) :=
  match s with
  | String c rest =>
      if Ascii.eqb c quote then
        match string_literal rest with
        | Some (k, rest') =>
            match skip_ws rest' with
            | String ":" rest'' => Some (k, rest'')
            | _ => None
            end
        | None => None
        end
      else None
  | EmptyString => None
  end.

(** The constants [json.loads] reads beyond the grammar. *)
Definition scan_constant (s : string) : option (value * string) :=
  match strip_prefix "NaN" s, strip_prefix "Infinity" s,
        strip_prefix "-Infinity" s with
  | Some rest, _, _ => Some (VFloatNaN, rest)
  | _, Some rest, _ => Some (VFloatInf false, rest)
  | _, _, Some rest => Some (VFloatInf true, rest)
  | _, _, _ => None
  end.

Fixpoint parse_value (strict : bool) (fuel : nat) (s : string) {struct fuel}
  : option (value * string) :=
  match fuel with
  | O => None
  | S fuel =>
      match s with
      | EmptyString => None
      | String c rest =>
          if Ascii.eqb c "[" then
            match skip_ws rest with
            | String "]" rest' => Some (VList [], rest')
            | rest' => parse_elems strict fuel [] rest'
            end
          else if Ascii.eqb c "{" then
            match skip_ws rest with
            | String "}" rest' => Some (VDict [], rest')
            | rest' => parse_members strict fuel [] rest'
            end
          else if Ascii.eqb c quote then
            match string_literal rest with
            | Some (lit, rest') => Some (VStr lit, rest')
            | None => None
            end
          else
            match strip_prefix "null" s, strip_prefix "true" s,
                  strip_prefix "false" s with
            | Some rest', _, _ => Some (VNone, rest')
            | _, Some rest', _ => Some (VBool true, rest')
            | _, _, Some rest' => Some (VBool false, rest')
            | _, _, _ =>
                let number :=
                  if Ascii.eqb c "-" then scan_number true rest
                  else scan_number false s in
                match number with
                | Some found => Some found
                | None => if strict then None else scan_constant s
                end
            end
      end
  end

with parse_elems (strict : bool) (fuel : nat) (acc : list value) (s : string)
  {struct fuel} : option (value * string) :=
  match fuel with
  | O => None
  | S fuel =>
      match parse_value strict fuel s with
      | Some (v, rest) =>
          match skip_ws rest with
          | String "," rest' =>
              parse_elems strict fuel (acc ++ [v]) (skip_ws rest')
          | String "]" rest' => Some (VList (acc ++ [v]), rest')
          | _ => None
          end
      | None => None
      end
  end

with parse_members (strict : bool) (fuel : nat) (acc : pydict) (s : string)
  {struct fuel} : option (value * string) :=
  match fuel with
  | O => None
  | S fuel =>
      match expect_key s with
      | Some (k, rest) =>
          match parse_value strict fuel (skip_ws rest) with
          | Some (v, rest') =>
              match skip_ws rest' with
              | String "," rest'' =>
                  parse_members strict fuel (dict_set k v acc) (skip_ws rest'')
              | String "}" rest'' => Some (VDict (dict_set k v acc), rest'')
              | _ => None
              end
          | None => None
          end
      | None => None
      end
  end.

Definition parse (strict : bool) (s : string) : option value :=
  match parse_value strict (2 * String.length s + 2) (skip_ws s) with
  | Some (v, rest) =>
      match skip_ws rest with
      | EmptyString => Some v
      | String _ _ => None
      end
  | None => None
  end.

(** [json.loads] *)
Definition loads (s : string) : option value := parse false s.

(** [s] is JSON text by the grammar of RFC 8259. *)
Definition conforms (s : string) : bool :=
  match parse true s with
  | Some _ => true
  | None => false
  end.

Definition decode (s : string) : decoding :=
  match loads s with
  | Some v => Decoded v
  | None => JSONDecodeError
  end.

End json.

(** ** Reading a response *)

Definition descriptor_fields : list string :=
  ["name"; "description"; "url"; "method"].

(** A dict with exactly the four descriptor fields, all strings. *)
Definition is_tool_descriptor (v : value) : bool :=
  match v with
  | VDict d =>
      (length d =? 4)
      && forallb (fun k => match dict_get k d with
                           | Some x => is_str x
                           | None => false
                           end) descriptor_fields
  | _ => false
  end.

Definition fields_nonempty (v : value) : bool :=
  forallb (fun k => match getitem v k with
                    | Some x => nonempty_str x
                    | None => false
                    end) descriptor_fields.

(** The [tools] array of a successful response. *)
Definition tool_catalog (r : response) : option (list value) :=
  match r with
  | JSONResponse doc =>
      match getitem doc "tools" with
      | Some (VList l) => Some l
      | _ => None
      end
  | HTTPError _ => None
  end.

Definition server_version (r : response) : option value :=
  match r with
  | JSONResponse doc =>
      match getitem doc "server_info" with
      | Some info => getitem info "version"
      | None => None
      end
  | HTTPError _ => None
  end.


(** The request has a body and the body decodes. *)
Definition has_json_body (b : option decoding) : bool :=
  match b with
  | Some (Decoded _) => true
  | _ => false
  end.

Definition registered : list (http_method * string) :=
  map (fun r => (route_method r, route_path r)) app.

(** The route a descriptor names, when its [method] field is the name of an
    HTTP method. *)
Definition descriptor_target (t : value) : option (http_method * string) :=
  match getitem t "url", getitem t "method" with
  | Some (VStr u), Some (VStr m) =>
      match filter (fun x => String.eqb (method_name x) m)
                   [GET; POST; PUT; DELETE; PATCH; HEAD; OPTIONS] with
      | x :: _ => Some (x, u)
      | [] => None
      end
  | _, _ => None
  end.

(** What the two time fields of a [/time] response say, both in
    microseconds since the epoch: [current_time] read back with
    [fromisoformat] and taken as local time, and [unix_timestamp]. *)
Definition time_fields (w : World) (doc : value) : option (Z * Z) :=
  match getitem doc "current_time", getitem doc "unix_timestamp" with
  | Some (VStr s), Some (VFloat m (-6)) =>
      match datetime.fromisoformat s with
      | Some d => Some (datetime.posix_micros (utcoffset w d) d, m)
      | None => None
      end
  | _, _ => None
  end.

(** The two fields of the response to a [/time] request made in world [w]
    are no more than one second apart. *)
Definition time_fields_agree (w : World) : Prop :=
  exists doc a b,
    fst (get_current_time w) = inl doc /\
    time_fields w doc = Some (a, b) /\
    (Z.abs (b - a) <= 1000000)%Z.

(** ** Concrete worlds and requests *)

(** A clock that advances by one microsecond per read, in a zone one hour
    east of UTC; the random source is about to hand out the given words. *)
Definition world_with_words (words : list nat) : World :=
  mkWorld (fun k => datetime.mk 2026 11 3 15 25 7 (N.of_nat k)) 0
          (fun _ => 3600%Z) words 0.

Definition sample_world : World :=
  world_with_words [7; 2; 5; 0; 3; 6; 1; 4].

(** The same, but the process is held for five seconds between the first
    and the second read of the clock. *)
Definition stalled_world : World :=
  mkWorld (fun k => match k with
                    | O => datetime.mk 2026 11 3 15 25 7 250000
                    | S _ => datetime.mk 2026 11 3 15 25 12 250000
                    end) 0
          (fun _ => 3600%Z) [7; 2; 5; 0; 3; 6; 1; 4] 0.

Definition dq : string := String json.quote "".

(** An object body with two members, [a] bound to the array of 1 and null,
    [b] bound to the string x. *)
Definition sample_object : string :=
  "{" ++ dq ++ "a" ++ dq ++ ": [1, null], "
      ++ dq ++ "b" ++ dq ++ ": " ++ dq ++ "x" ++ dq ++ "}".


(** A body whose one member, [a], is the constant NaN: not JSON text by the
    grammar, and read by [json.loads] all the same. *)
Definition nan_object : string :=
  "{" ++ dq ++ "a" ++ dq ++ ": NaN}".

(** ** Counting draws

    All the ways [length] calls of [getrandbits(bits)] can come out, and
    what [/random-fact] answers on each. *)






(** Of the words to come, cut to three bits, those that [_randbelow(5)]
    accepts. *)
Definition accepted (words : list nat) : list nat :=
  filter (fun r => r <? 5) (map (fun word => word mod 8) words).

(** ** Serving a run of requests

    The handlers contain no [await], so the event loop that [uvicorn.run]
    starts runs each of them to completion before the next one: a run of
    the server is its requests handled in turn, each in the world the
    previous one left. *)

Section Run.

Variable json_loads : string -> decoding.

Fixpoint serve_all (reqs : list request) (w : World)
  : list response * World :=
  match reqs with
  | [] => ([], w)
  | req :: rest =>
      let (resp, w1) := handle json_loads req w in
      let (resps, w2) := serve_all rest w1 in
      (resp :: resps, w2)
  end.

End Run.

(** A member of the document of a successful response. *)
Definition response_field (r : response) (k : string) : option value :=
  match r with
  | JSONResponse doc => getitem doc k
  | HTTPError _ => None
  end.

(** A member of a successful response that holds an ISO 8601 string, read
    back as a datetime. *)
Definition response_instant (r : response) (k : string)
  : option datetime.t :=
  match response_field r k with
  | Some (VStr s) => datetime.fromisoformat s
  | _ => None
  end.

(** The world after [reads] more reads of the clock and [drawn] more calls
    of [getrandbits]. *)
Definition advance (reads drawn : nat) (w : World) : World :=
  mkWorld (clock w) (reads + clock_reads w) (utcoffset w)
          (skipn drawn (entropy w)) (drawn + draws w).

(** A world whose random source hands out the word [i] next. *)
Definition world_drawing (i : nat) : World := world_with_words [i].

(** * Properties *)

(** ** isoformat and fromisoformat *)

Section IsoFormat.

Import datetime.
Local Open Scope N_scope.

Lemma digit_value_digit (n : N) :
  n < 10 -> digit_value (digit n) = Some n.
Proof.
  intros Hn. unfold digit_value, digit.
  rewrite (N.mod_small n 10) by assumption.
  rewrite N_ascii_embedding by lia.
  replace (48 <=? 48 + n) with true by (symmetry; apply N.leb_le; lia).
  replace (48 + n <=? 57) with true by (symmetry; apply N.leb_le; lia).
  cbn [andb]. f_equal. lia.
Qed.

Lemma pow10_pos (w : nat) : 0 < 10 ^ N.of_nat w.
Proof. apply N.neq_0_lt_0, N.pow_nonzero. discriminate. Qed.

Lemma pow10_succ (w : nat) : 10 ^ N.of_nat (S w) = 10 * 10 ^ N.of_nat w.
Proof. rewrite Nat2N.inj_succ. apply N.pow_succ_r'. Qed.

Lemma read_digits_zfill (w : nat) :
  forall n acc rest,
    n < 10 ^ N.of_nat w ->
    read_digits w acc (zfill w n ++ rest)
    = Some (acc * 10 ^ N.of_nat w + n, rest).
Proof.
  induction w as [|w IH]; intros n acc rest Hn.
  - simpl in *. f_equal. f_equal. lia.
  - rewrite pow10_succ in Hn.
    pose proof (pow10_pos w) as Hpos.
    assert (Hq : n / 10 ^ N.of_nat w < 10)
      by (apply N.Div0.div_lt_upper_bound; lia).
    assert (Hr : n mod 10 ^ N.of_nat w < 10 ^ N.of_nat w)
      by (apply N.mod_lt; lia).
    cbn [zfill read_digits append].
    rewrite (digit_value_digit _ Hq), (IH _ _ _ Hr), pow10_succ.
    f_equal. f_equal.
    pose proof (N.div_mod n (10 ^ N.of_nat w)) as Hdm.
    nia.
Qed.

Lemma field_zfill (w : nat) (sep : ascii) (n : N) (rest : string) :
  n < 10 ^ N.of_nat w ->
  field w sep (zfill w n ++ String sep "" ++ rest) = Some (n, rest).
Proof.
  intros Hn. unfold field.
  rewrite (read_digits_zfill w n 0 _ Hn).
  cbn [append expect]. rewrite Ascii.eqb_refl. reflexivity.
Qed.

Lemma append_empty_r (s : string) : (s ++ "")%string = s.
Proof. induction s as [|c s IH]; simpl; [reflexivity | now rewrite IH]. Qed.

Lemma month_table_le (i : nat) :
  nth i [0; 31; 28; 31; 30; 31; 30; 31; 31; 30; 31; 30; 31] 0 <= 31.
Proof.
  do 13 (destruct i as [|i]; [cbn [nth]; lia |]).
  destruct i; cbn [nth]; lia.
Qed.

Lemma days_in_month_le (y m : N) : days_in_month y m <= 31.
Proof.
  unfold days_in_month.
  destruct ((m =? 2) && is_leap y); [lia | apply month_table_le].
Qed.

(** What [valid] says, as inequalities. *)
Lemma valid_bounds (d : t) :
  valid d = true ->
  year d < 10 ^ 4 /\ month d < 10 ^ 2 /\ day d < 10 ^ 2 /\
  hour d < 10 ^ 2 /\ minute d < 10 ^ 2 /\ second d < 10 ^ 2 /\
  microsecond d < 10 ^ 6.
Proof.
  unfold valid. intros H.
  repeat (apply andb_prop in H; destruct H as [H ?]).
  repeat match goal with
         | h : (_ <=? _) = true |- _ => apply N.leb_le in h
         | h : (_ <? _) = true |- _ => apply N.ltb_lt in h
         end.
  pose proof (days_in_month_le (year d) (month d)).
  change (10 ^ 4) with 10000. change (10 ^ 2) with 100.
  change (10 ^ 6) with 1000000.
  repeat split; lia.
Qed.

(** [fromisoformat] inverts [isoformat] on every datetime object. *)
Lemma fromisoformat_isoformat (d : t) :
  valid d = true -> fromisoformat (isoformat d) = Some d.
Proof.
  intros Hv.
  destruct (valid_bounds d Hv) as (Hy & Hmo & Hd & Hh & Hmi & Hs & Hus).
  unfold isoformat, fromisoformat.
  rewrite (field_zfill 4 "-" _ _ Hy).
  rewrite (field_zfill 2 "-" _ _ Hmo).
  rewrite (field_zfill 2 "T" _ _ Hd).
  rewrite (field_zfill 2 ":" _ _ Hh).
  rewrite (field_zfill 2 ":" _ _ Hmi).
  rewrite (read_digits_zfill 2 _ 0 _ Hs).
  change (0 * 10 ^ N.of_nat 2 + second d) with (second d).
  destruct (microsecond d =? 0) eqn:Hz.
  - apply N.eqb_eq in Hz. unfold checked.
    replace (mk (year d) (month d) (day d) (hour d) (minute d) (second d) 0)
      with d by (destruct d; simpl in *; now subst).
    now rewrite Hv.
  - cbn [append]. rewrite Ascii.eqb_refl.
    rewrite <- (append_empty_r (zfill 6 (microsecond d))).
    rewrite (read_digits_zfill 6 _ 0 _ Hus).
    change (0 * 10 ^ N.of_nat 6 + microsecond d) with (microsecond d).
    unfold checked.
    replace (mk (year d) (month d) (day d) (hour d) (minute d) (second d)
                (microsecond d)) with d by (destruct d; reflexivity).
    now rewrite Hv.
Qed.

(** *** What [isoformat] prints is ASCII text *)

Lemma plain_app (a b : string) :
  plain (a ++ b) = plain a && plain b.
Proof.
  induction a as [|c a IH]; [reflexivity |].
  cbn [append plain]. now rewrite IH, andb_assoc.
Qed.

Lemma plain_digit (n : N) : (N_of_ascii (digit n) <? 128) = true.
Proof.
  unfold digit.
  assert (n mod 10 < 10) by (apply N.mod_lt; discriminate).
  rewrite N_ascii_embedding by lia.
  apply N.ltb_lt. lia.
Qed.

Lemma plain_zfill (w : nat) : forall n, plain (zfill w n) = true.
Proof.
  induction w as [|w IH]; intros n; [reflexivity |].
  cbn [zfill plain]. now rewrite plain_digit, IH.
Qed.

Lemma plain_isoformat (d : t) : plain (isoformat d) = true.
Proof.
  unfold isoformat.
  repeat rewrite plain_app. repeat rewrite plain_zfill.
  destruct (microsecond d =? 0); [reflexivity |].
  rewrite plain_app, plain_zfill. reflexivity.
Qed.

Lemma plain_encodable (s : string) : plain s = true -> encodable s = true.
Proof.
  induction s as [|c s IH]; [reflexivity |].
  cbn [plain]. intros H. apply andb_prop in H. destruct H as [Hc Hs].
  cbn [encodable]. destruct s as [|c' s']; [reflexivity |].
  rewrite (IH Hs), andb_true_r.
  apply N.ltb_lt in Hc.
  replace (N_of_ascii c =? 237) with false; [reflexivity |].
  symmetry. apply N.eqb_neq. lia.
Qed.

Lemma encodable_isoformat (d : t) : encodable (isoformat d) = true.
Proof. apply plain_encodable, plain_isoformat. Qed.

End IsoFormat.

(** ** The fact list *)

Lemma facts_length : length facts = 5.
Proof. reflexivity. Qed.


Lemma facts_encodable (r : nat) : encodable (nth r facts "") = true.
Proof. do 5 (destruct r as [|r]; [reflexivity |]). now destruct r. Qed.


(** ** The draw *)

Lemma randbelow_loop_cons (word : nat) (words : list nat) :
  randbelow_loop 3 5 (word :: words)
  = if word mod 8 <? 5 then (word mod 8, 1)
    else let (r, calls) := randbelow_loop 3 5 words in (r, S calls).
Proof. reflexivity. Qed.

(** The loop returns an index in range, after at least one call. *)
Lemma randbelow_loop_range (k n : nat) (words : list nat) :
  0 < n ->
  fst (randbelow_loop k n words) < n /\ 1 <= snd (randbelow_loop k n words).
Proof.
  intros Hn. induction words as [|word words IH]; cbn [randbelow_loop].
  - cbn. lia.
  - destruct (word mod 2 ^ k <? n) eqn:E.
    + apply Nat.ltb_lt in E. cbn. lia.
    + destruct (randbelow_loop k n words) as [r calls]. cbn in *. lia.
Qed.

(** [random.choice(facts)] never raises: it returns the fact at the index
    the loop accepts, and the source is left after the words the loop
    asked for. *)
Lemma random_choice_facts (w : World) :
  random_choice facts w
  = (inl (nth (fst (randbelow_loop 3 5 (entropy w))) facts ""),
     advance 0 (snd (randbelow_loop 3 5 (entropy w))) w).
Proof.
  destruct (randbelow_loop_range 3 5 (entropy w)) as [Hr _]; [lia |].
  unfold random_choice, facts at 1, bind, randbelow.
  change (bit_length (length facts)) with 3. rewrite facts_length.
  destruct (randbelow_loop 3 5 (entropy w)) as [r calls]. cbn [fst snd] in *.
  unfold seq_getitem.
  rewrite (nth_error_nth' facts "") by (rewrite facts_length; exact Hr).
  reflexivity.
Qed.

Lemma get_random_fact_run (w : World) :
  get_random_fact w
  = (inl (VDict
            [("fact",
              VStr (nth (fst (randbelow_loop 3 5 (entropy w))) facts ""));
             ("timestamp",
              VStr (datetime.isoformat (clock w (clock_reads w))))]),
     advance 1 (snd (randbelow_loop 3 5 (entropy w))) w).
Proof.
  unfold get_random_fact, bind. rewrite random_choice_facts. reflexivity.
Qed.

(** *** Counting the outcomes *)










(** ** Rendering *)

Lemma renderable_dict_cons (k : string) (x : value) (rest : pydict) :
  renderable (VDict ((k, x) :: rest))
  = encodable k && renderable x && renderable (VDict rest).
Proof. reflexivity. Qed.

Section Server.

Variable json_loads : string -> decoding.

(** ** [/] *)

(** C6: a GET request to [/] is answered, whatever else the request holds
    and whatever the clock and the random source say, with exactly the
    object whose only member is [message], bound to
    [Simple MCP Server is running!]; the world is left as it was. *)
Theorem root_response_constant (b : string) (w : World) :
  handle json_loads (mkRequest GET "/" b) w
  = (JSONResponse (VDict [("message", VStr "Simple MCP Server is running!")]),
     w).
Proof. reflexivity. Qed.

(** ** [/health] *)

Lemma serve_health (b : string) (w : World) :
  handle json_loads (mkRequest GET "/health" b) w
  = (JSONResponse
       (VDict [("status", VStr "healthy");
               ("timestamp",
                VStr (datetime.isoformat (clock w (clock_reads w))))]),
     advance 1 0 w).
Proof.
  unfold handle. cbn [find_route app method path route_path route_method
                      route_endpoint].
  cbn -[renderable datetime.isoformat].
  rewrite !renderable_dict_cons. cbn [renderable].
  now rewrite encodable_isoformat.
Qed.

(** ** [/random-fact] *)

(** One call: the fact at the index the loop accepts, one read of the
    clock, and as many calls of [getrandbits] as the loop makes. *)
Lemma serve_random_fact_run (b : string) (w : World) :
  handle json_loads (mkRequest GET "/random-fact" b) w
  = (JSONResponse
       (VDict
          [("fact",
            VStr (nth (fst (randbelow_loop 3 5 (entropy w))) facts ""));
           ("timestamp",
            VStr (datetime.isoformat (clock w (clock_reads w))))]),
     advance 1 (snd (randbelow_loop 3 5 (entropy w))) w).
Proof.
  unfold handle. cbn [find_route app method path route_path route_method
                      route_endpoint].
  cbn -[get_random_fact renderable]. rewrite get_random_fact_run.
  rewrite !renderable_dict_cons. cbn [renderable].
  now rewrite facts_encodable, encodable_isoformat.
Qed.


(** ** [/echo] *)

Lemma serve_echo (b : string) (X : pydict) (w : World) :
  request_json json_loads (mkRequest POST "/echo" b)
  = Some (Decoded (VDict X)) ->
  handle json_loads (mkRequest POST "/echo" b) w
  = (if renderable (VDict X)
     then JSONResponse
            (VDict [("echoed", VDict X);
                    ("timestamp",
                     VStr (datetime.isoformat (clock w (clock_reads w))));
                    ("message", VStr "Echo successful")])
     else HTTPError 500,
     advance 1 0 w).
Proof.
  intros Hdec.
  unfold handle. cbn [find_route app method path route_path route_method
                      route_endpoint].
  cbn -[request_json echo_message renderable]. rewrite Hdec.
  cbn -[renderable datetime.isoformat].
  rewrite !renderable_dict_cons.
  change (renderable (VStr ?s)) with (encodable s).
  rewrite encodable_isoformat.
  change (encodable "echoed") with true.
  now rewrite andb_true_l, !andb_true_r.
Qed.


(** C7, as the code has it: when the body of a POST to [/echo] is absent or
    is rejected by the decoder, the answer is an error with a 4xx status
    (422, or 400 when reading the body raised something other than a
    decode error); no success payload is produced and the handler does not
    run (the clock is not read, the world is unchanged). *)
Theorem echo_malformed_rejected (b : string) (w : World) :
  has_json_body (request_json json_loads (mkRequest POST "/echo" b)) = false ->
  (exists s, handle json_loads (mkRequest POST "/echo" b) w = (HTTPError s, w))
  /\ is_4xx (fst (handle json_loads (mkRequest POST "/echo" b) w)) = true
  /\ snd (handle json_loads (mkRequest POST "/echo" b) w) = w
  /\ forall doc,
       fst (handle json_loads (mkRequest POST "/echo" b) w) <> JSONResponse doc.
Proof.
  intros Hdec.
  assert (E : handle json_loads (mkRequest POST "/echo" b) w
              = (HTTPError 422, w)
              \/ handle json_loads (mkRequest POST "/echo" b) w
                 = (HTTPError 400, w)).
  { unfold handle. cbn [find_route app method path route_path route_method
                        route_endpoint].
    cbn -[request_json echo_message].
    destruct (request_json json_loads (mkRequest POST "/echo" b))
      as [[v| |]|]; try discriminate Hdec; auto. }
  destruct E as [E | E]; rewrite E;
    (split; [eexists; reflexivity |]);
    (split; [reflexivity |]); (split; [reflexivity | discriminate]).
Qed.


(** ** [/mcp] *)

(** C8: the answer to a POST to [/mcp] does not depend on the request body
    nor on the world the request is served in: any two such requests get
    the same response, and serving one leaves the world as it was. *)
Theorem mcp_response_static (b1 b2 : string) (w1 w2 : World) :
  fst (handle json_loads (mkRequest POST "/mcp" b1) w1)
  = fst (handle json_loads (mkRequest POST "/mcp" b2) w2)
  /\ snd (handle json_loads (mkRequest POST "/mcp" b1) w1) = w1.
Proof. split; reflexivity. Qed.

(** C4: every response of [/mcp] has exactly three entries in [tools], each
    with non-empty [name], [description], [url] and [method] strings, and
    its [server_info.version] is the string [1.0.0]. *)
Theorem mcp_three_tools_version (b : string) (w : World) :
  exists tools,
    tool_catalog (fst (handle json_loads (mkRequest POST "/mcp" b) w)) = Some tools /\
    length tools = 3 /\
    forallb fields_nonempty tools = true /\
    server_version (fst (handle json_loads (mkRequest POST "/mcp" b) w))
    = Some (VStr "1.0.0").
Proof. eexists. repeat split. Qed.

(** C3, as the code has it: the tool catalog that [/mcp] returns consists of
    three tool descriptors (not five), each a record with exactly the
    string fields [name], [description], [url] and [method]. *)
Theorem mcp_catalog_three_descriptors (b : string) (w : World) :
  exists tools,
    tool_catalog (fst (handle json_loads (mkRequest POST "/mcp" b) w)) = Some tools /\
    length tools = 3 /\
    forallb is_tool_descriptor tools = true.
Proof. eexists. repeat split. Qed.

(** ** [/time] *)

Lemma serve_time (b : string) (w : World) :
  handle json_loads (mkRequest GET "/time" b) w
  = (JSONResponse
       (VDict
          [("current_time",
            VStr (datetime.isoformat (clock w (clock_reads w))));
           ("timezone", VStr "UTC");
           ("unix_timestamp",
            VFloat (datetime.posix_micros
                      (utcoffset w (clock w (S (clock_reads w))))
                      (clock w (S (clock_reads w)))) (-6))]),
     advance 2 0 w).
Proof.
  unfold handle. cbn [find_route app method path route_path route_method
                      route_endpoint].
  cbn -[renderable datetime.isoformat datetime.posix_micros].
  rewrite !renderable_dict_cons. cbn [renderable].
  now rewrite encodable_isoformat.
Qed.

(** C10: every descriptor of the catalog names a route the application
    registers: the three targets are GET [/random-fact], GET [/time] and
    GET [/health], each is in the route table, and a request with that
    method and path is answered with status 200 in every world. *)
Theorem catalog_routes_served (b : string) (w : World) :
  exists tools,
    tool_catalog (fst (handle json_loads (mkRequest POST "/mcp" b) w)) = Some tools /\
    map descriptor_target tools
    = [Some (GET, "/random-fact"); Some (GET, "/time"); Some (GET, "/health")]
    /\
    Forall (fun t => exists m u,
                descriptor_target t = Some (m, u) /\
                In (m, u) registered /\
                forall b' w',
                  status_code (fst (handle json_loads (mkRequest m u b') w')) = 200)
           tools.
Proof.
  eexists. split; [reflexivity |]. split; [reflexivity |].
  repeat constructor.
  - exists GET, "/random-fact". split; [reflexivity |].
    split; [cbn; tauto |]. intros b' w'.
    now rewrite serve_random_fact_run.
  - exists GET, "/time". split; [reflexivity |].
    split; [cbn; tauto |]. intros b' w'. now rewrite serve_time.
  - exists GET, "/health". split; [reflexivity |].
    split; [cbn; tauto |]. intros b' w'. now rewrite serve_health.
Qed.

End Server.

(** The document [/time] answers with: the first read of the clock in
    [current_time], the second in [unix_timestamp]. *)
Lemma get_current_time_run (w : World) :
  fst (get_current_time w)
  = inl (VDict
           [("current_time",
             VStr (datetime.isoformat (clock w (clock_reads w))));
            ("timezone", VStr "UTC");
            ("unix_timestamp",
             VFloat (datetime.posix_micros
                       (utcoffset w (clock w (S (clock_reads w))))
                       (clock w (S (clock_reads w)))) (-6))]).
Proof. reflexivity. Qed.

(** C5: the handler reads the clock twice, and nothing keeps the two reads
    together.  In a world where the process is held for five seconds
    between them, a GET to [/time] is answered with a [current_time] and a
    [unix_timestamp] that denote instants five seconds apart, not within
    one second. *)
Theorem time_fields_disagree_when_stalled :
  datetime.valid (clock stalled_world 0) = true /\
  datetime.valid (clock stalled_world 1) = true /\
  (exists doc a b,
      fst (handle json.decode (mkRequest GET "/time" "") stalled_world)
      = JSONResponse doc /\
      time_fields stalled_world doc = Some (a, b) /\
      (b - a = 5000000)%Z) /\
  ~ time_fields_agree stalled_world.
Proof.
  split; [reflexivity |]. split; [reflexivity |]. split.
  - rewrite serve_time. cbn [fst]. eexists. eexists. eexists.
    split; [reflexivity |]. split; [vm_compute; reflexivity | reflexivity].
  - intros (doc & a & b & Hrun & Hfields & Hle).
    rewrite get_current_time_run in Hrun.
    injection Hrun as <-.
    vm_compute in Hfields. injection Hfields as <- <-.
    vm_compute in Hle. now apply Hle.
Qed.

(** ** The statements at concrete requests *)



Lemma echo_malformed_rejected_witness :
  request_json json.decode (mkRequest POST "/echo" "{not json")
  = Some JSONDecodeError /\
  is_4xx (fst (handle json.decode (mkRequest POST "/echo" "{not json")
                      sample_world)) = true.
Proof.
  split; [vm_compute; reflexivity |].
  apply (echo_malformed_rejected json.decode "{not json" sample_world).
  vm_compute. reflexivity.
Defined.

(** C7 as stated fails: the body whose member [a] is the constant NaN is
    not JSON text, yet the decoder reads it, the handler runs and reads
    the clock, and the answer is 500, not a 4xx status. *)
Lemma echo_nan_object_reaches_handler :
  json.conforms nan_object = false /\
  request_json json.decode (mkRequest POST "/echo" nan_object)
  = Some (Decoded (VDict [("a", VFloatNaN)])) /\
  handle json.decode (mkRequest POST "/echo" nan_object) sample_world
  = (HTTPError 500, advance 1 0 sample_world) /\
  is_4xx (fst (handle json.decode (mkRequest POST "/echo" nan_object)
                      sample_world)) = false.
Proof.
  assert (Hdec : request_json json.decode (mkRequest POST "/echo" nan_object)
                 = Some (Decoded (VDict [("a", VFloatNaN)])))
    by (vm_compute; reflexivity).
  split; [vm_compute; reflexivity |]. split; [exact Hdec |].
  rewrite (serve_echo json.decode _ _ sample_world Hdec).
  split; reflexivity.
Qed.



(** C3 as stated fails: the catalog does not have five entries. *)
Lemma mcp_catalog_not_five :
  ~ exists tools,
      tool_catalog (fst (handle json.decode (mkRequest POST "/mcp" "")
                                sample_world)) = Some tools /\
      length tools = 5 /\
      forallb is_tool_descriptor tools = true.
Proof.
  intros (tools & Hcat & Hlen & _).
  vm_compute in Hcat. injection Hcat as <-. discriminate Hlen.
Qed.

(** * Further properties of the handlers and of the dispatch *)

Section Handlers.

Variable json_loads : string -> decoding.

(** ** [/health] *)

(** X1: a GET request to [/health] succeeds with [status] bound to [healthy]
    and [timestamp] bound to the ISO 8601 form of the one reading of the
    clock it takes: read back, the timestamp is that reading.  The random
    source is not touched. *)
Theorem health_reports_clock (b : string) (w : World) :
  datetime.valid (clock w (clock_reads w)) = true ->
  status_code (fst (handle json_loads (mkRequest GET "/health" b) w)) = 200 /\
  response_field (fst (handle json_loads (mkRequest GET "/health" b) w))
                 "status" = Some (VStr "healthy") /\
  response_instant (fst (handle json_loads (mkRequest GET "/health" b) w))
                   "timestamp" = Some (clock w (clock_reads w)) /\
  snd (handle json_loads (mkRequest GET "/health" b) w) = advance 1 0 w.
Proof.
  intros Hvalid. rewrite serve_health.
  split; [reflexivity |]. split; [reflexivity |]. split; [| reflexivity].
  unfold response_instant.
  cbn -[datetime.isoformat datetime.fromisoformat].
  exact (fromisoformat_isoformat _ Hvalid).
Qed.

(** X2: two answers of [/health] are equal exactly when the clock readings
    behind them are: the timestamp tells instants apart down to the
    microsecond. *)
Theorem health_timestamps_distinguish (b1 b2 : string) (w1 w2 : World) :
  datetime.valid (clock w1 (clock_reads w1)) = true ->
  datetime.valid (clock w2 (clock_reads w2)) = true ->
  (fst (handle json_loads (mkRequest GET "/health" b1) w1)
   = fst (handle json_loads (mkRequest GET "/health" b2) w2)
   <-> clock w1 (clock_reads w1) = clock w2 (clock_reads w2)).
Proof.
  intros Hv1 Hv2. rewrite !serve_health. cbn [fst]. split.
  - intros Heq.
    pose proof (fromisoformat_isoformat _ Hv1) as R1.
    pose proof (fromisoformat_isoformat _ Hv2) as R2.
    remember (datetime.isoformat (clock w1 (clock_reads w1))) as s1.
    remember (datetime.isoformat (clock w2 (clock_reads w2))) as s2.
    injection Heq as Heq. rewrite Heq, R2 in R1. now injection R1.
  - intros ->. reflexivity.
Qed.

(** ** [/echo] *)



(** ** [/random-fact] *)

(** X5: every fact of the list can come out: for each one there is a word of
    the random source on which [/random-fact] answers with it. *)
Theorem every_fact_reachable (f : string) (b : string) :
  In f facts ->
  exists w,
    response_field (fst (handle json_loads (mkRequest GET "/random-fact" b) w))
                   "fact" = Some (VStr f).
Proof.
  intros Hin. apply In_nth_error in Hin. destruct Hin as (i & Hi).
  assert (Hlt : i < 5).
  { rewrite <- facts_length. apply nth_error_Some. now rewrite Hi. }
  exists (world_drawing i). rewrite serve_random_fact_run.
  do 5 (destruct i as [|i]; [now injection Hi as <- |]). lia.
Qed.

Lemma accepted_cons (word : nat) (words : list nat) :
  accepted (word :: words)
  = if word mod 8 <? 5 then word mod 8 :: accepted words
    else accepted words.
Proof. reflexivity. Qed.

(** The loop returns the first accepted word and leaves the source after
    it. *)
Lemma randbelow_loop_accepted (words : list nat) :
  forall r rest,
    accepted words = r :: rest ->
    fst (randbelow_loop 3 5 words) = r /\
    accepted (skipn (snd (randbelow_loop 3 5 words)) words) = rest.
Proof.
  induction words as [|word words IH]; intros r rest H; [discriminate |].
  rewrite accepted_cons in H. rewrite randbelow_loop_cons.
  destruct (word mod 8 <? 5).
  - injection H as <- <-. split; reflexivity.
  - destruct (IH _ _ H) as [Hr Hrest].
    destruct (randbelow_loop 3 5 words) as [r' calls].
    cbn [fst snd skipn] in *. now split.
Qed.

(** X6: requests to [/random-fact] in a row are answered from the words of
    the random source that the loop of [_randbelow] accepts, in order: when
    at least [n] of the words to come are accepted (below five once cut to
    three bits), the i-th of [n] requests answers with the fact at the i-th
    accepted word; the rejected words in between are skipped and nothing
    is kept from one call to the next. *)
Theorem random_fact_run (b : string) (n : nat) :
  forall w,
    n <= length (accepted (entropy w)) ->
    map (fun r => response_field r "fact")
        (fst (serve_all json_loads
                (repeat (mkRequest GET "/random-fact" b) n) w))
    = map (fun r => Some (VStr (nth r facts "")))
          (firstn n (accepted (entropy w))).
Proof.
  induction n as [|n IH]; intros w Hn; [reflexivity |].
  destruct (accepted (entropy w)) as [|r rest] eqn:E; [cbn in Hn; lia |].
  destruct (randbelow_loop_accepted _ _ _ E) as [Hr Hrest].
  cbn [repeat serve_all]. rewrite serve_random_fact_run, Hr.
  specialize (IH (advance 1 (snd (randbelow_loop 3 5 (entropy w))) w)).
  cbn [advance entropy] in IH. rewrite Hrest in IH.
  destruct (serve_all json_loads
              (repeat (mkRequest GET "/random-fact" b) n)
              (advance 1 (snd (randbelow_loop 3 5 (entropy w))) w))
    as [resps w2].
  cbn [fst map firstn] in *. f_equal.
  apply IH. cbn [length] in Hn. lia.
Qed.

(** ** The dispatch *)

(** X7: a path the application registers, asked for with another method than
    the one it is registered with, is answered with 405; no handler runs
    and the world is unchanged. *)
Theorem wrong_method_not_allowed
  (r : route) (m : http_method) (b : string) (w : World) :
  In r app ->
  m <> route_method r ->
  handle json_loads (mkRequest m (route_path r) b) w = (HTTPError 405, w).
Proof.
  intros Hin Hm. cbn in Hin.
  destruct Hin as [<- | [<- | [<- | [<- | [<- | [<- | []]]]]]];
    cbn [route_method route_path] in *;
    destruct m; try (now elim Hm); reflexivity.
Qed.

End Handlers.

(** ** The further statements at concrete requests *)

Lemma health_reports_clock_witness :
  datetime.valid (clock sample_world 0) = true /\
  response_instant
    (fst (handle json.decode (mkRequest GET "/health" "") sample_world))
    "timestamp" = Some (datetime.mk 2026 11 3 15 25 7 0).
Proof.
  split; [reflexivity |].
  apply (health_reports_clock json.decode "" sample_world). reflexivity.
Defined.

Lemma health_timestamps_distinguish_witness :
  datetime.valid (clock sample_world 0) = true /\
  datetime.valid (clock stalled_world 0) = true /\
  fst (handle json.decode (mkRequest GET "/health" "") sample_world)
  <> fst (handle json.decode (mkRequest GET "/health" "") stalled_world).
Proof.
  split; [reflexivity |]. split; [reflexivity |].
  intros Heq.
  apply (health_timestamps_distinguish json.decode "" "" sample_world
           stalled_world) in Heq; [discriminate Heq | reflexivity ..].
Defined.



Lemma every_fact_reachable_witness :
  In "Octopuses have three hearts and blue blood" facts /\
  exists w,
    response_field
      (fst (handle json.decode (mkRequest GET "/random-fact" "") w)) "fact"
    = Some (VStr "Octopuses have three hearts and blue blood").
Proof.
  split; [right; left; reflexivity |].
  apply (every_fact_reachable json.decode).
  right; left; reflexivity.
Defined.

Lemma random_fact_run_witness :
  3 <= length (accepted [5; 1; 7; 6; 0; 11; 2]) /\
  map (fun r => response_field r "fact")
      (fst (serve_all json.decode
              (repeat (mkRequest GET "/random-fact" "") 3)
              (world_with_words [5; 1; 7; 6; 0; 11; 2])))
  = [Some (VStr "Octopuses have three hearts and blue blood");
     Some (VStr "The MCP protocol was designed to standardize AI tool integration");
     Some (VStr "A group of flamingos is called a 'flamboyance'")].
Proof.
  split; [vm_compute; lia |].
  apply (random_fact_run json.decode "" 3
           (world_with_words [5; 1; 7; 6; 0; 11; 2])).
  vm_compute. lia.
Defined.

Lemma wrong_method_not_allowed_witness :
  In (mkRoute POST "/echo" (DictBody echo_message)) app /\
  GET <> POST /\
  handle json.decode (mkRequest GET "/echo" sample_object) sample_world
  = (HTTPError 405, sample_world).
Proof.
  split; [do 4 right; left; reflexivity |]. split; [discriminate |].
  apply (wrong_method_not_allowed json.decode
           (mkRoute POST "/echo" (DictBody echo_message)) GET
           sample_object sample_world).
  - do 4 right; left; reflexivity.
  - discriminate.
Defined.
